(** * Food and Beverage Catalog API: the catalog service of [src/app.py]

    A shallow embedding of the in-memory catalog and of the three request
    handlers that read or mutate it ([get_inventory], [place_order],
    [restock_product]), followed by the properties of the specification.

    Python values are modelled as follows.
    - [int] is unbounded, hence [Z].
    - [float] is IEEE 754 binary64, hence Rocq's primitive [float].
    - [str] is [string].
    - [dict] keeps insertion order and has unique keys: an association list,
      with the uniqueness of keys as the well-formedness predicate [dict_wf].
    - A handler that raises is modelled by the [Raised] outcome; the catalog
      is process-wide mutable state, threaded explicitly through every
      handler, so that a handler returns its outcome and the catalog it
      leaves behind.
    The calls to [logger.info] write to the logging subsystem only; they
    neither read nor change the catalog or the returned value and are left
    out of the model. *)

From Stdlib Require Import ZArith Bool List String DecimalString Lia.
From Stdlib Require Import PrimFloat FloatOps SpecFloat Uint63.
Import ListNotations.

Set Warnings "-inexact-float".
Local Open Scope Z_scope.

(* ================================================================= *)
(** ** Python built-ins used by the handlers *)

Module Py.

(** [str(n)] for an [int]: decimal digits, a leading minus sign when
    negative. *)
Definition str_int (n : Z) : string := NilEmpty.string_of_int (Z.to_int n).

(** [sep.join(parts)]. *)
Definition join (sep : string) (parts : list string) : string :=
  String.concat sep parts.

(** Conversion of a positive [int] to [float] ([PyLong_AsDouble]): the
    integer is rounded to 53 significant bits, ties to even, and the
    conversion raises [OverflowError] ([None]) when the rounded value
    does not fit in a binary64 float, that is when it reaches [2^1024]. *)
Definition float_of_pos (a : Z) : option float :=
  let nbits := Z.log2 a + 1 in
  if nbits <=? 53 then Some (of_uint63 (Uint63.of_Z a))
  else
    let sh := nbits - 53 in
    let m := Z.shiftr a sh in
    let r := Z.land a (Z.ones sh) in
    let half := 2 ^ (sh - 1) in
    let m' := if (half <? r) || ((half =? r) && Z.odd m) then m + 1 else m in
    if 2 ^ 1024 <=? m' * 2 ^ sh then None
    else Some (Z.ldexp (of_uint63 (Uint63.of_Z m')) sh).

(** [float(n)] as performed implicitly by a mixed [int]/[float]
    operation. *)
Definition float_of_int (n : Z) : option float :=
  match n with
  | 0 => Some 0%float
  | Zpos _ => float_of_pos n
  | Zneg _ => option_map PrimFloat.opp (float_of_pos (- n))
  end.

(** [n * x] for an [int] [n] and a [float] [x]: [n] is converted first
    (and the conversion may raise), then the two floats are multiplied. *)
Definition int_mul_float (n : Z) (x : float) : option float :=
  option_map (fun f => PrimFloat.mul f x) (float_of_int n).

(** The integer nearest to [m * 2^e], ties to even. *)
Definition nearest_even_scaled (m e : Z) : Z :=
  if 0 <=? e then m * 2 ^ e
  else
    let d := 2 ^ (- e) in
    let q := m / d in
    let r := m mod d in
    match 2 * r ?= d with
    | Lt => q
    | Gt => q + 1
    | Eq => if Z.even q then q else q + 1
    end.

(** The float nearest to [n / 100] (ties to even) for [n > 0], with sign
    [s]: the correctly rounded reading of a decimal numeral with two
    digits after the point. *)
Definition float_of_hundredths (s : bool) (n : Z) : float :=
  let '(q, e, l) := SFdiv_core_binary prec emax n 0 100 0 in
  SF2Prim (binary_round_aux prec emax s q e l).

(** [round(x, 2)]: the exact value of [x] is rounded to two decimal
    places, ties to even, and the resulting decimal numeral is read back
    as the nearest float. Zeros, infinities and NaN round to
    themselves. *)
Definition round2 (x : float) : float :=
  match Prim2SF x with
  | S754_finite s m e =>
      let n := nearest_even_scaled (Zpos m * 100) e in
      if n =? 0 then (if s then (-0)%float else 0%float)
      else float_of_hundredths s n
  | _ => x
  end.

End Py.

(* ================================================================= *)
(** ** Dictionaries *)

Section Dict.

Context {V : Type}.

(** A [dict] with [str] keys, in insertion order. *)
Definition Dict : Type := list (string * V).

(** [d[k]] guarded by [k in d]: [None] when [k not in d]. *)
Fixpoint dict_get (k : string) (d : Dict) : option V :=
  match d with
  | [] => None
  | (k', v) :: rest => if String.eqb k k' then Some v else dict_get k rest
  end.

(** [d[k] = v]: the entry of [k] is overwritten where it stands, a new
    key is appended. *)
Fixpoint dict_set (k : string) (v : V) (d : Dict) : Dict :=
  match d with
  | [] => [(k, v)]
  | (k', v') :: rest =>
      if String.eqb k k' then (k', v) :: rest
      else (k', v') :: dict_set k v rest
  end.

(** [d.keys()]. *)
Definition dict_keys (d : Dict) : list string := map fst d.

(** [len(d)]. *)
Definition dict_len (d : Dict) : Z := Z.of_nat (List.length d).

(** The keys of a dictionary are pairwise distinct. *)
Definition dict_wf (d : Dict) : Prop := NoDup (dict_keys d).

End Dict.

Arguments Dict : clear implicits.

(* ================================================================= *)
(** ** Data model *)

(** [class Product(BaseModel)]. The field constraints ([qty >= 0],
    [price > 0]) are checked by the constructor only: an assignment to a
    field of an existing product is not validated. *)
Module Product.
Record t : Type := make
  { units : string;
    qty : Z;
    price : float;
    name : string }.

(** [p.qty = q] on an existing product. *)
Definition set_qty (p : t) (q : Z) : t :=
  {| units := units p; qty := q; price := price p; name := name p |}.
End Product.

(** [class OrderResponse(BaseModel)]. *)
Module OrderResponse.
Record t : Type := make
  { product : string;
    product_name : string;
    ordered_qty : Z;
    units : string;
    remaining_qty : Z;
    total_price : float;
    message : string }.
End OrderResponse.

(** One value of the [products] dictionary built by [get_inventory]. *)
Module InventoryRow.
Record t : Type := make
  { name : string;
    units : string;
    qty : Z;
    price : float;
    in_stock : bool }.
End InventoryRow.

(** [class InventoryResponse(BaseModel)]. *)
Module InventoryResponse.
Record t : Type := make
  { products : Dict InventoryRow.t;
    total_products : Z }.
End InventoryResponse.

(** The dictionary returned by [restock_product]. *)
Module RestockResponse.
Record t : Type := make
  { product : string;
    product_name : string;
    previous_qty : Z;
    restocked_qty : Z;
    new_qty : Z;
    message : string }.
End RestockResponse.

(** The [detail] of an [HTTPException]: a string, or one of the two
    dictionaries built by [place_order]. *)
Inductive Detail : Type :=
| DetailText (text : string)
| DetailInsufficient (error : string) (requested available : Z)
                     (product message : string)
| DetailOutOfStock (error product message : string).

(** What a handler can raise: the [HTTPException]s it builds itself, the
    [OverflowError] of an [int] too large for a [float], and the rejection
    of a query parameter by the [Query(..., gt=0)] constraint. *)
Inductive Exception : Type :=
| HTTPException (status_code : Z) (detail : Detail)
| OverflowError
| RequestValidationError.

Inductive Outcome (A : Type) : Type :=
| Returned (a : A)
| Raised (e : Exception).

Arguments Returned {A} a.
Arguments Raised {A} e.

Definition Catalog : Type := Dict Product.t.

(** The catalog the process starts with. *)
Definition catalog : Catalog :=
  [ ("pizza"%string,
      Product.make "boxes" 1000 12.99 "Deluxe Pizza");
    ("beer"%string,
      Product.make "bottles" 500 4.50 "Craft Beer");
    ("burger"%string,
      Product.make "pieces" 750 8.99 "Classic Burger");
    ("White Russians"%string,
      Product.make "pieces" 1750 12.99 "White Russians Cocktail");
    ("fries"%string,
      Product.make "servings" 1200 3.99 "French Fries") ].

(** The error kinds of the specification, read off an exception. *)
Definition is_NotFound (e : Exception) : bool :=
  match e with
  | HTTPException 404 (DetailText _) => true
  | _ => false
  end.


Definition is_OutOfStock (e : Exception) : bool :=
  match e with
  | HTTPException 400 (DetailOutOfStock _ _ _) => true
  | _ => false
  end.

(* ================================================================= *)
(** ** The handlers *)

Local Open Scope string_scope.

(** [GET /warehouse/inventory]. The loop fills a fresh dictionary, one
    assignment per item of the catalog; the catalog is only read. *)
Definition get_inventory (catalog : Catalog)
  : InventoryResponse.t * Catalog :=
  let inventory_data :=
    fold_left
      (fun (inventory_data : Dict InventoryRow.t) (item : string * Product.t) =>
         let '(product_id, product) := item in
         dict_set product_id
           {| InventoryRow.name := Product.name product;
              InventoryRow.units := Product.units product;
              InventoryRow.qty := Product.qty product;
              InventoryRow.price := Product.price product;
              InventoryRow.in_stock := (0 <? Product.qty product)%Z |}
           inventory_data)
      catalog [] in
  ({| InventoryResponse.products := inventory_data;
      InventoryResponse.total_products := dict_len catalog |},
   catalog).

(** [GET /warehouse/{product}], the body of the handler. [product_data]
    and [catalog[product]] are the same object, so the assignment to
    [catalog[product].qty] is seen through [product_data] as well; the
    multiplication that may raise comes after it. *)
Definition place_order (catalog : Catalog) (product : string) (order_qty : Z)
  : Outcome OrderResponse.t * Catalog :=
  match dict_get product catalog with
  | None =>
      let available_products := Py.join ", " (dict_keys catalog) in
      (Raised (HTTPException 404
         (DetailText ("Product '" ++ product
                      ++ "' not found. Available products: "
                      ++ available_products))),
       catalog)
  | Some product_data =>
      let available := Product.qty product_data in
      if (available <? order_qty)%Z then
        (Raised (HTTPException 400
           (DetailInsufficient
              "Insufficient stock"
              order_qty
              available
              (Product.name product_data)
              ("Sorry, only " ++ Py.str_int available ++ " "
               ++ Product.units product_data ++ " available"))),
         catalog)
      else if (available =? 0)%Z then
        (Raised (HTTPException 400
           (DetailOutOfStock
              "Out of stock"
              (Product.name product_data)
              ("Sorry, " ++ Product.name product_data
               ++ " is currently out of stock"))),
         catalog)
      else
        let product_data :=
          Product.set_qty product_data (Product.qty product_data - order_qty) in
        let catalog := dict_set product product_data catalog in
        match Py.int_mul_float order_qty (Product.price product_data) with
        | None => (Raised OverflowError, catalog)
        | Some total_price =>
            (Returned
               {| OrderResponse.product := product;
                  OrderResponse.product_name := Product.name product_data;
                  OrderResponse.ordered_qty := order_qty;
                  OrderResponse.units := Product.units product_data;
                  OrderResponse.remaining_qty := Product.qty product_data;
                  OrderResponse.total_price := Py.round2 total_price;
                  OrderResponse.message :=
                    "Successfully ordered " ++ Py.str_int order_qty ++ " "
                    ++ Product.units product_data ++ " of "
                    ++ Product.name product_data |},
             catalog)
        end
  end.

(** [POST /warehouse/{product}/restock], the body of the handler. *)
Definition restock_product (catalog : Catalog) (product : string)
                           (restock_qty : Z)
  : Outcome RestockResponse.t * Catalog :=
  match dict_get product catalog with
  | None =>
      (Raised (HTTPException 404
         (DetailText ("Product '" ++ product ++ "' not found"))),
       catalog)
  | Some product_data =>
      let old_qty := Product.qty product_data in
      let product_data := Product.set_qty product_data (old_qty + restock_qty) in
      let catalog := dict_set product product_data catalog in
      let new_qty := Product.qty product_data in
      (Returned
         {| RestockResponse.product := product;
            RestockResponse.product_name := Product.name product_data;
            RestockResponse.previous_qty := old_qty;
            RestockResponse.restocked_qty := restock_qty;
            RestockResponse.new_qty := new_qty;
            RestockResponse.message :=
              "Successfully restocked " ++ Py.str_int restock_qty ++ " "
              ++ Product.units product_data |},
       catalog)
  end.

(** The handlers as the framework calls them: a quantity that is not
    positive is rejected by [Query(..., gt=0)] before the body runs. *)
Definition place_order_request (catalog : Catalog) (product : string)
                               (order_qty : Z)
  : Outcome OrderResponse.t * Catalog :=
  if (0 <? order_qty)%Z then place_order catalog product order_qty
  else (Raised RequestValidationError, catalog).

Definition restock_product_request (catalog : Catalog) (product : string)
                                   (restock_qty : Z)
  : Outcome RestockResponse.t * Catalog :=
  if (0 <? restock_qty)%Z then restock_product catalog product restock_qty
  else (Raised RequestValidationError, catalog).

Local Close Scope string_scope.

(* ================================================================= *)
(** ** Definitions used by the statements *)

Local Open Scope string_scope.

(** The least positive integer whose conversion raises [OverflowError]:
    half an ulp above the largest finite float. *)
Definition float_overflow_threshold : Z := (2 ^ 1024 - 2 ^ 970)%Z.

(** The response of a successful order of [q] units of [p], whose record
    before the order is [prod] and whose total before rounding is
    [total]. *)
Definition order_response (p : string) (prod : Product.t) (q : Z)
                          (total : float) : OrderResponse.t :=
  {| OrderResponse.product := p;
     OrderResponse.product_name := Product.name prod;
     OrderResponse.ordered_qty := q;
     OrderResponse.units := Product.units prod;
     OrderResponse.remaining_qty := Product.qty prod - q;
     OrderResponse.total_price := Py.round2 total;
     OrderResponse.message :=
       "Successfully ordered " ++ Py.str_int q ++ " "
       ++ Product.units prod ++ " of " ++ Product.name prod |}.

(** The catalog after [q] units were taken from the stock of [p]. *)
Definition after_order (c : Catalog) (p : string) (prod : Product.t) (q : Z)
  : Catalog :=
  dict_set p (Product.set_qty prod (Product.qty prod - q)) c.

(** The response of a restock of [q] units of [p], whose record before
    is [prod]. *)
Definition restock_response (p : string) (prod : Product.t) (q : Z)
  : RestockResponse.t :=
  {| RestockResponse.product := p;
     RestockResponse.product_name := Product.name prod;
     RestockResponse.previous_qty := Product.qty prod;
     RestockResponse.restocked_qty := q;
     RestockResponse.new_qty := Product.qty prod + q;
     RestockResponse.message :=
       "Successfully restocked " ++ Py.str_int q ++ " " ++ Product.units prod |}.

(** The catalog after [q] units were added to the stock of [p]. *)
Definition after_restock (c : Catalog) (p : string) (prod : Product.t) (q : Z)
  : Catalog :=
  dict_set p (Product.set_qty prod (Product.qty prod + q)) c.

(** The frame of a quantity update: same keys in the same order, the
    other products untouched, and of product [p] only [qty] may differ. *)
Definition only_qty_of (p : string) (c c' : Catalog) : Prop :=
  dict_keys c' = dict_keys c /\
  (forall p', p' <> p -> dict_get p' c' = dict_get p' c) /\
  (forall prod, dict_get p c = Some prod ->
     exists prod', dict_get p c' = Some prod' /\
                   Product.name prod' = Product.name prod /\
                   Product.units prod' = Product.units prod /\
                   Product.price prod' = Product.price prod) /\
  (dict_get p c = None -> dict_get p c' = None).

(** The row [get_inventory] builds for a product. *)
Definition inventory_row (product : Product.t) : InventoryRow.t :=
  {| InventoryRow.name := Product.name product;
     InventoryRow.units := Product.units product;
     InventoryRow.qty := Product.qty product;
     InventoryRow.price := Product.price product;
     InventoryRow.in_stock := (0 <? Product.qty product)%Z |}.

Definition inventory_item (item : string * Product.t)
  : string * InventoryRow.t :=
  (fst item, inventory_row (snd item)).

(** No product has a negative quantity. *)
Definition stock_nonneg (c : Catalog) : Prop :=
  forall p prod, dict_get p c = Some prod -> (0 <= Product.qty prod)%Z.

(** The catalog once all the pizzas are sold. *)
Definition catalog_sold_out : Catalog :=
  snd (place_order catalog "pizza" 1000).

(** The catalog once the stock of pizzas was raised by [2^1024]. *)
Definition catalog_huge_pizza : Catalog :=
  snd (restock_product catalog "pizza" (2 ^ 1024)).

(** The catalog once the stock of beer was raised to [2^1024]. *)
Definition catalog_huge_beer : Catalog :=
  snd (restock_product catalog "beer" (2 ^ 1024 - 500)).

Local Close Scope string_scope.

(* ================================================================= *)
(** ** The health endpoint, the client's product list and the request loop *)

(** The dictionary returned by [health_check]. *)
Module HealthResponse.
Record t : Type := make
  { status : string;
    products_available : Z }.
End HealthResponse.

(** [GET /health]. *)
Definition health_check (catalog : Catalog) : HealthResponse.t * Catalog :=
  ({| HealthResponse.status := "healthy"%string;
      HealthResponse.products_available := dict_len catalog |},
   catalog).

(** [ITEM_NAMES = list(app.catalog.keys())] of [src/client.py]: the keys of
    the catalog as it is when the module is imported. *)
Definition ITEM_NAMES : list string := dict_keys catalog.

(** A request to one of the four endpoints that use the catalog. *)
Inductive Request : Type :=
| GetInventory
| PlaceOrder (product : string) (order_qty : Z)
| Restock (product : string) (restock_qty : Z)
| HealthCheck.

(** The body of a response, by endpoint. *)
Inductive Response : Type :=
| InventoryBody (r : InventoryResponse.t)
| OrderBody (r : OrderResponse.t)
| RestockBody (r : RestockResponse.t)
| HealthBody (r : HealthResponse.t).

Definition outcome_map {A B : Type} (f : A -> B) (o : Outcome A) : Outcome B :=
  match o with
  | Returned a => Returned (f a)
  | Raised e => Raised e
  end.

(** The route table: each request goes to its handler, the quantities
    through their [gt=0] validation. *)
Definition dispatch (c : Catalog) (r : Request) : Outcome Response * Catalog :=
  match r with
  | GetInventory =>
      let '(resp, c') := get_inventory c in (Returned (InventoryBody resp), c')
  | PlaceOrder product order_qty =>
      let '(o, c') := place_order_request c product order_qty in
      (outcome_map OrderBody o, c')
  | Restock product restock_qty =>
      let '(o, c') := restock_product_request c product restock_qty in
      (outcome_map RestockBody o, c')
  | HealthCheck =>
      let '(resp, c') := health_check c in (Returned (HealthBody resp), c')
  end.

(** The catalog after a sequence of requests served one after the
    other. *)
Definition run (c : Catalog) (rs : list Request) : Catalog :=
  fold_left (fun c r => snd (dispatch c r)) rs c.

(** The product a request is about, if any. *)
Definition target (r : Request) : option string :=
  match r with
  | PlaceOrder product _ => Some product
  | Restock product _ => Some product
  | GetInventory | HealthCheck => None
  end.

(** What a handler leaves behind: the catalog it was given, or that
    catalog with a new record, of a quantity read off the old record, at
    the key of a product that is present. *)
Definition order_update (prod : Product.t) (q : Z) : option Product.t :=
  if (Product.qty prod <? q)%Z then None
  else if (Product.qty prod =? 0)%Z then None
  else Some (Product.set_qty prod (Product.qty prod - q)).

Definition apply_update (c : Catalog) (p : string)
                        (update : Product.t -> option Product.t) : Catalog :=
  match dict_get p c with
  | Some prod =>
      match update prod with
      | Some prod' => dict_set p prod' c
      | None => c
      end
  | None => c
  end.

(** The products of [c'] are those of [c], in the same order, with the
    same name, units and price. *)
Definition same_products (c c' : Catalog) : Prop :=
  dict_keys c' = dict_keys c /\
  forall p prod,
    dict_get p c = Some prod ->
    exists prod',
      dict_get p c' = Some prod' /\
      Product.name prod' = Product.name prod /\
      Product.units prod' = Product.units prod /\
      Product.price prod' = Product.price prod.

(* ================================================================= *)
(** ** Facts about dictionaries *)

Section DictFacts.

Context {V : Type}.
Implicit Types (d : Dict V) (k : string) (v : V).

Lemma dict_get_None_iff k d :
  dict_get k d = None <-> ~ In k (dict_keys d).
Proof.
  induction d as [|[k' v'] d IH]; simpl.
  - tauto.
  - destruct (String.eqb_spec k k') as [->|Hne].
    + split; [discriminate | intros H; exfalso; apply H; now left].
    + rewrite IH. split.
      * intros H [E|E]; [now apply Hne | now apply H].
      * intros H E. apply H. now right.
Qed.

Lemma dict_get_Some_In k d v :
  dict_get k d = Some v -> In k (dict_keys d).
Proof.
  intros H.
  destruct (in_dec string_dec k (dict_keys d)) as [Hin|Hout]; [exact Hin|].
  apply dict_get_None_iff in Hout. congruence.
Qed.

Lemma dict_get_set_same k v d :
  dict_get k (dict_set k v d) = Some v.
Proof.
  induction d as [|[k' v'] d IH]; simpl.
  - now rewrite String.eqb_refl.
  - destruct (String.eqb k k') eqn:E; simpl; rewrite E; [reflexivity | exact IH].
Qed.

Lemma dict_get_set_other k k' v d :
  k' <> k -> dict_get k' (dict_set k v d) = dict_get k' d.
Proof.
  intros Hne. induction d as [|[k0 v0] d IH]; simpl.
  - destruct (String.eqb_spec k' k); [contradiction | reflexivity].
  - destruct (String.eqb_spec k k0) as [->|Hk]; simpl.
    + destruct (String.eqb_spec k' k0); [contradiction | reflexivity].
    + now rewrite IH.
Qed.

(** Assigning to a key that is present keeps the keys and their order. *)
Lemma dict_keys_set_present k v v0 d :
  dict_get k d = Some v0 -> dict_keys (dict_set k v d) = dict_keys d.
Proof.
  induction d as [|[k' v'] d IH]; simpl; [discriminate|].
  destruct (String.eqb k k'); simpl; [reflexivity|].
  intros H. now rewrite (IH H).
Qed.

Lemma dict_len_set_present k v v0 d :
  dict_get k d = Some v0 -> dict_len (dict_set k v d) = dict_len d.
Proof.
  intros H. unfold dict_len.
  rewrite <- (length_map fst (dict_set k v d)), <- (length_map fst d).
  change (map fst (dict_set k v d)) with (dict_keys (dict_set k v d)).
  now rewrite (dict_keys_set_present k v v0 d H).
Qed.


(** Of two assignments to the same key only the second one counts. *)
Lemma dict_set_set k v1 v2 d :
  dict_set k v2 (dict_set k v1 d) = dict_set k v2 d.
Proof.
  induction d as [|[k' v'] d IH]; simpl.
  - now rewrite String.eqb_refl.
  - destruct (String.eqb k k') eqn:E; simpl; rewrite E; [reflexivity|].
    now rewrite IH.
Qed.

Lemma dict_wf_set_present k v v0 d :
  dict_get k d = Some v0 -> dict_wf d -> dict_wf (dict_set k v d).
Proof.
  unfold dict_wf. intros H Hwf.
  now rewrite (dict_keys_set_present k v v0 d H).
Qed.

(** Appending a binding of a fresh key. *)
Lemma dict_set_absent k v d :
  ~ In k (dict_keys d) -> dict_set k v d = d ++ [(k, v)].
Proof.
  induction d as [|[k' v'] d IH]; simpl; [reflexivity|].
  intros H. destruct (String.eqb_spec k k') as [->|Hne].
  - exfalso. apply H. now left.
  - rewrite IH; [reflexivity|]. intros Hin. apply H. now right.
Qed.

End DictFacts.

(* ================================================================= *)
(** ** The range of [int] to [float] conversion *)

(** Below the threshold the conversion returns a float. *)
Lemma float_of_pos_in_range (a : Z) :
  0 < a -> a < float_overflow_threshold ->
  exists f, Py.float_of_pos a = Some f.
Proof.
  unfold float_overflow_threshold. intros Hpos Hlt. unfold Py.float_of_pos.
  destruct (Z.log2 a + 1 <=? 53) eqn:Hsmall; [eauto|].
  apply Z.leb_gt in Hsmall.
  destruct (Z.log2_spec a Hpos) as [Hlo Hhi].
  set (L := Z.log2 a) in *.
  set (sh := L + 1 - 53).
  assert (Hsh : 1 <= sh) by (unfold sh; lia).
  rewrite Z.shiftr_div_pow2 by lia.
  rewrite Z.land_ones by lia.
  set (m := a / 2 ^ sh). set (r := a mod 2 ^ sh).
  match goal with
  | |- context [if ?b then m + 1 else m] => set (m' := if b then m + 1 else m)
  end.
  destruct (2 ^ 1024 <=? m' * 2 ^ sh) eqn:Hover; [exfalso | eauto].
  apply Z.leb_le in Hover.
  assert (Hp : 0 < 2 ^ sh) by (apply Z.pow_pos_nonneg; lia).
  assert (Hsplit : 2 ^ Z.succ L = 2 ^ 53 * 2 ^ sh).
  { rewrite <- Z.pow_add_r by lia. f_equal. unfold sh. lia. }
  assert (Hm : m < 2 ^ 53).
  { apply Z.div_lt_upper_bound; [exact Hp|]. rewrite Z.mul_comm. lia. }
  assert (Hdecomp : a = 2 ^ sh * m + r) by (apply Z.div_mod; lia).
  assert (Hr : 0 <= r < 2 ^ sh) by (apply Z.mod_pos_bound; exact Hp).
  assert (Hm' : m' <= 2 ^ 53) by (subst m'; destruct (_ || _); lia).
  (* The rounded value reaches 2^1024 only for a 1024-bit integer. *)
  assert (HL : L = 1023).
  { assert (L < 1024).
    { apply Z.log2_lt_pow2; [exact Hpos|].
      assert (0 < 2 ^ 970) by (apply Z.pow_pos_nonneg; lia). lia. }
    assert (1023 <= L); [|lia].
    destruct (Z.le_gt_cases 1023 L) as [|Hc]; [assumption|exfalso].
    assert (2 ^ Z.succ L <= 2 ^ 1023) by (apply Z.pow_le_mono_r; lia).
    nia. }
  assert (Hsh971 : sh = 971) by (unfold sh; lia).
  assert (Hhalf : 2 ^ (sh - 1) = 2 ^ 970) by (rewrite Hsh971; reflexivity).
  assert (Hsh2 : 2 ^ sh = 2 * 2 ^ 970).
  { rewrite Hsh971. change 971 with (Z.succ 970). now rewrite Z.pow_succ_r by lia. }
  assert (H1024 : 2 ^ 1024 = 2 ^ 53 * (2 * 2 ^ 970)).
  { rewrite <- Hsh2, <- Hsplit, HL. reflexivity. }
  assert (H970 : 0 < 2 ^ 970) by (apply Z.pow_pos_nonneg; lia).
  rewrite Hsh2, H1024 in *.
  set (u := 2 ^ 970) in *.
  assert (Hm53 : 2 ^ 53 <= m') by nia.
  assert (Hup : m' = m + 1 /\ 2 ^ (sh - 1) <= r).
  { subst m'. destruct (2 ^ (sh - 1) <? r) eqn:E1; simpl in *.
    - apply Z.ltb_lt in E1. lia.
    - destruct (2 ^ (sh - 1) =? r) eqn:E2; simpl in *.
      + apply Z.eqb_eq in E2. destruct (Z.odd m); lia.
      + lia. }
  destruct Hup as [Hup1 Hup2]. rewrite Hhalf in Hup2.
  assert (m = 2 ^ 53 - 1) by lia.
  subst m'. nia.
Qed.

(** From the threshold on, the conversion raises. *)
Lemma float_of_pos_overflow (a : Z) :
  float_overflow_threshold <= a -> Py.float_of_pos a = None.
Proof.
  unfold float_overflow_threshold. intros Hge.
  assert (H970 : 0 < 2 ^ 970) by (apply Z.pow_pos_nonneg; lia).
  assert (H1023 : 2 ^ 1024 = 2 * 2 ^ 1023).
  { change 1024 with (Z.succ 1023). now rewrite Z.pow_succ_r by lia. }
  assert (H970' : 2 ^ 970 <= 2 ^ 1023) by (apply Z.pow_le_mono_r; lia).
  assert (Hpos : 0 < a) by lia.
  assert (HL : 1023 <= Z.log2 a) by (apply Z.log2_le_pow2; lia).
  destruct (Z.log2_spec a Hpos) as [Hlo Hhi].
  unfold Py.float_of_pos.
  set (L := Z.log2 a) in *.
  destruct (L + 1 <=? 53) eqn:Hsmall; [apply Z.leb_le in Hsmall; lia|].
  set (sh := L + 1 - 53).
  rewrite Z.shiftr_div_pow2 by (unfold sh; lia).
  rewrite Z.land_ones by (unfold sh; lia).
  set (m := a / 2 ^ sh). set (r := a mod 2 ^ sh).
  match goal with
  | |- context [if ?b then m + 1 else m] => set (m' := if b then m + 1 else m)
  end.
  assert (Hp : 0 < 2 ^ sh) by (apply Z.pow_pos_nonneg; unfold sh; lia).
  assert (HsplitL : 2 ^ L = 2 ^ 52 * 2 ^ sh).
  { rewrite <- Z.pow_add_r by (unfold sh; lia). f_equal. unfold sh. lia. }
  assert (Hm52 : 2 ^ 52 <= m).
  { apply Z.div_le_lower_bound; [exact Hp|]. rewrite Z.mul_comm. lia. }
  assert (Hmm' : m <= m') by (subst m'; destruct (_ || _); lia).
  destruct (Z.le_gt_cases 1024 L) as [Hbig|Hedge].
  - (* 1025 bits or more: already the truncated value is too large *)
    assert (2 ^ 1024 <= 2 ^ L) by (apply Z.pow_le_mono_r; lia).
    assert (Hov : 2 ^ 1024 <= m' * 2 ^ sh) by nia.
    apply Z.leb_le in Hov. now rewrite Hov.
  - (* exactly 1024 bits: the mantissa is all ones and rounds up *)
    assert (HL' : L = 1023) by lia.
    assert (Hsh971 : sh = 971) by (unfold sh; lia).
    assert (Hsh2 : 2 ^ sh = 2 * 2 ^ 970).
    { rewrite Hsh971. change 971 with (Z.succ 970). now rewrite Z.pow_succ_r by lia. }
    assert (Hhalf : 2 ^ (sh - 1) = 2 ^ 970) by (rewrite Hsh971; reflexivity).
    assert (Htop : 2 ^ 1024 = 2 ^ 53 * 2 ^ sh).
    { rewrite <- Z.pow_add_r by lia. f_equal. lia. }
    assert (Hdecomp : a = 2 ^ sh * m + r) by (apply Z.div_mod; lia).
    assert (Hr : 0 <= r < 2 ^ sh) by (apply Z.mod_pos_bound; exact Hp).
    assert (Hm53 : m < 2 ^ 53).
    { apply Z.div_lt_upper_bound; [exact Hp|].
      rewrite Z.mul_comm, <- Htop. rewrite HL' in Hhi. exact Hhi. }
    assert (Hm : m = 2 ^ 53 - 1) by nia.
    assert (Hrhalf : 2 ^ (sh - 1) <= r) by (rewrite Hhalf; nia).
    assert (Hm'val : m' = 2 ^ 53).
    { subst m'. rewrite Hm at 1. 
      destruct (2 ^ (sh - 1) <? r) eqn:E1; simpl; [lia|].
      apply Z.ltb_ge in E1.
      assert (E2 : 2 ^ (sh - 1) = r) by lia.
      apply Z.eqb_eq in E2. rewrite E2. simpl. lia. }
    assert (Hov : 2 ^ 1024 <= m' * 2 ^ sh) by (rewrite Hm'val, Htop; lia).
    apply Z.leb_le in Hov. now rewrite Hov.
Qed.

(** A positive integer converts to a float exactly when it is below the
    threshold. *)
Lemma float_of_int_None_iff (n : Z) :
  0 < n ->
  Py.float_of_int n = None <-> float_overflow_threshold <= n.
Proof.
  intros Hpos. destruct n as [|p|p]; try lia. simpl. split.
  - intros Hnone.
    destruct (Z.le_gt_cases float_overflow_threshold (Z.pos p)) as [|Hlt];
      [assumption|].
    destruct (float_of_pos_in_range (Z.pos p) Hpos) as [f Hf]; [lia|].
    congruence.
  - apply float_of_pos_overflow.
Qed.

Lemma float_of_int_in_range (n : Z) :
  0 < n -> n < float_overflow_threshold ->
  exists f, Py.float_of_int n = Some f.
Proof.
  intros Hpos Hlt. destruct n as [|p|p]; try lia.
  now apply float_of_pos_in_range.
Qed.

Lemma int_mul_float_in_range (n : Z) (x : float) :
  0 < n -> n < float_overflow_threshold ->
  exists f, Py.int_mul_float n x = Some f.
Proof.
  intros Hpos Hlt. unfold Py.int_mul_float.
  destruct (float_of_int_in_range n Hpos Hlt) as [f ->]. simpl. eauto.
Qed.

(* ================================================================= *)
(** ** How the handlers run *)

Local Open Scope string_scope.

Lemma place_order_passes (c : Catalog) (p : string) (q : Z)
                         (prod : Product.t) :
  dict_get p c = Some prod ->
  (q <= Product.qty prod)%Z ->
  Product.qty prod <> 0%Z ->
  place_order c p q =
    match Py.int_mul_float q (Product.price prod) with
    | Some total => (Returned (order_response p prod q total),
                     after_order c p prod q)
    | None => (Raised OverflowError, after_order c p prod q)
    end.
Proof.
  intros Hget Hle Hnz. unfold place_order. rewrite Hget.
  destruct (Z.ltb_spec (Product.qty prod) q) as [Hlt|_]; [lia|].
  destruct (Z.eqb_spec (Product.qty prod) 0) as [Hz|_]; [contradiction|].
  simpl. destruct (Py.int_mul_float q (Product.price prod)); reflexivity.
Qed.

(** A returned response pins down the path the handler took. *)
Lemma place_order_Returned_inv (c c' : Catalog) (p : string) (q : Z)
                               (resp : OrderResponse.t) :
  place_order c p q = (Returned resp, c') ->
  exists prod total,
    dict_get p c = Some prod /\
    (q <= Product.qty prod)%Z /\
    Product.qty prod <> 0%Z /\
    Py.int_mul_float q (Product.price prod) = Some total /\
    resp = order_response p prod q total /\
    c' = after_order c p prod q.
Proof.
  unfold place_order. destruct (dict_get p c) as [prod|] eqn:Hget; [|discriminate].
  destruct (Z.ltb_spec (Product.qty prod) q) as [Hlt|Hle]; [discriminate|].
  destruct (Z.eqb_spec (Product.qty prod) 0) as [Hz|Hnz]; [discriminate|].
  simpl.
  destruct (Py.int_mul_float q (Product.price prod)) as [total|] eqn:Hmul;
    [|discriminate].
  intros [= <- <-]. exists prod, total. repeat split; assumption.
Qed.

(** Whatever the outcome, the catalog is either left alone or has the
    stock of an existing product reduced. *)
Lemma place_order_catalog (c : Catalog) (p : string) (q : Z) :
  snd (place_order c p q) = c \/
  exists prod, dict_get p c = Some prod /\
               snd (place_order c p q) = after_order c p prod q.
Proof.
  unfold place_order. destruct (dict_get p c) as [prod|] eqn:Hget; [|now left].
  destruct (Product.qty prod <? q)%Z; [now left|].
  destruct (Product.qty prod =? 0)%Z; [now left|].
  right. exists prod. split; [reflexivity|].
  simpl. destruct (Py.int_mul_float q (Product.price prod)); reflexivity.
Qed.

Lemma restock_product_known (c : Catalog) (p : string) (q : Z)
                            (prod : Product.t) :
  dict_get p c = Some prod ->
  restock_product c p q =
    (Returned (restock_response p prod q), after_restock c p prod q).
Proof.
  intros Hget. unfold restock_product. now rewrite Hget.
Qed.

Lemma restock_product_unknown (c : Catalog) (p : string) (q : Z) :
  dict_get p c = None ->
  restock_product c p q =
    (Raised (HTTPException 404 (DetailText ("Product '" ++ p ++ "' not found"))),
     c).
Proof.
  intros Hget. unfold restock_product. now rewrite Hget.
Qed.

Lemma only_qty_of_refl (p : string) (c : Catalog) : only_qty_of p c c.
Proof.
  repeat split; auto. intros prod H. exists prod. auto.
Qed.

Lemma only_qty_of_set_qty (p : string) (c : Catalog) (prod : Product.t)
                          (n : Z) :
  dict_get p c = Some prod ->
  only_qty_of p c (dict_set p (Product.set_qty prod n) c).
Proof.
  intros Hget. repeat split.
  - exact (dict_keys_set_present p _ prod c Hget).
  - intros p' Hne. now apply dict_get_set_other.
  - intros prod0 H0. rewrite Hget in H0. injection H0 as <-.
    exists (Product.set_qty prod n). rewrite dict_get_set_same. auto.
  - congruence.
Qed.

Local Close Scope string_scope.

(* ================================================================= *)
(** ** The inventory listing *)

Lemma dict_keys_app {V : Type} (d1 d2 : Dict V) :
  dict_keys (d1 ++ d2) = dict_keys d1 ++ dict_keys d2.
Proof. apply map_app. Qed.

(** Filling a dictionary from items with fresh, pairwise distinct keys
    appends one row per item, in order. *)
Lemma inventory_loop (c : Catalog) :
  forall acc : Dict InventoryRow.t,
    dict_wf c ->
    (forall k, In k (dict_keys c) -> ~ In k (dict_keys acc)) ->
    fold_left
      (fun (inventory_data : Dict InventoryRow.t) (item : string * Product.t) =>
         let '(product_id, product) := item in
         dict_set product_id
           {| InventoryRow.name := Product.name product;
              InventoryRow.units := Product.units product;
              InventoryRow.qty := Product.qty product;
              InventoryRow.price := Product.price product;
              InventoryRow.in_stock := (0 <? Product.qty product) |}
           inventory_data)
      c acc
    = acc ++ map inventory_item c.
Proof.
  unfold dict_wf.
  induction c as [|[k prod] c IH]; intros acc Hwf Hfresh; simpl.
  - now rewrite app_nil_r.
  - simpl in Hwf. apply NoDup_cons_iff in Hwf. destruct Hwf as [Hk Hwf].
    rewrite dict_set_absent by (apply Hfresh; now left).
    rewrite IH.
    + rewrite <- app_assoc. reflexivity.
    + exact Hwf.
    + intros k' Hin. rewrite dict_keys_app. simpl. intros Hin'.
      apply in_app_or in Hin'. destruct Hin' as [Hacc|[<-|[]]].
      * apply (Hfresh k'); [now right | exact Hacc].
      * now apply Hk.
Qed.

Lemma get_inventory_products (c : Catalog) :
  dict_wf c ->
  InventoryResponse.products (fst (get_inventory c)) = map inventory_item c.
Proof.
  intros Hwf. unfold get_inventory. simpl.
  rewrite inventory_loop; [reflexivity | exact Hwf | intros k _ []].
Qed.

Lemma dict_keys_inventory (c : Catalog) :
  dict_keys (map inventory_item c) = dict_keys c.
Proof.
  unfold dict_keys. rewrite map_map. apply map_ext. now intros [k prod].
Qed.

Lemma dict_get_inventory (p : string) (c : Catalog) :
  dict_get p (map inventory_item c) = option_map inventory_row (dict_get p c).
Proof.
  induction c as [|[k prod] c IH]; simpl; [reflexivity|].
  destruct (String.eqb p k); [reflexivity | exact IH].
Qed.

Lemma catalog_wf : dict_wf catalog.
Proof.
  unfold dict_wf, catalog. simpl.
  repeat (apply NoDup_cons; [simpl; intuition discriminate|]).
  apply NoDup_nil.
Qed.

(* ================================================================= *)
(** ** Invariants of the catalog *)

(** The handlers keep the keys of the catalog distinct. *)
Lemma handlers_preserve_wf (c : Catalog) (p : string) (q : Z) :
  dict_wf c ->
  dict_wf (snd (place_order c p q)) /\
  dict_wf (snd (restock_product c p q)).
Proof.
  intros Hwf. split.
  - destruct (place_order_catalog c p q) as [->|(prod & Hget & ->)];
      [exact Hwf|].
    now apply (dict_wf_set_present p _ prod).
  - destruct (dict_get p c) as [prod|] eqn:Hget.
    + rewrite (restock_product_known c p q prod Hget).
      now apply (dict_wf_set_present p _ prod).
    + now rewrite (restock_product_unknown c p q Hget).
Qed.

Lemma stock_nonneg_set (c : Catalog) (p : string) (prod : Product.t) :
  stock_nonneg c -> 0 <= Product.qty prod ->
  stock_nonneg (dict_set p prod c).
Proof.
  intros Hc Hprod p' prod' Hget.
  destruct (string_dec p' p) as [->|Hne].
  - rewrite dict_get_set_same in Hget. now injection Hget as <-.
  - rewrite dict_get_set_other in Hget by exact Hne. now apply (Hc p').
Qed.

(** Validated requests keep every quantity non-negative. *)
Lemma requests_preserve_stock_nonneg (c : Catalog) (p : string) (q : Z) :
  stock_nonneg c ->
  stock_nonneg (snd (place_order_request c p q)) /\
  stock_nonneg (snd (restock_product_request c p q)).
Proof.
  intros Hc. unfold place_order_request, restock_product_request.
  destruct (Z.ltb_spec 0 q) as [Hpos|_]; [|now split].
  split.
  - unfold place_order. destruct (dict_get p c) as [prod|] eqn:Hget; [|exact Hc].
    destruct (Z.ltb_spec (Product.qty prod) q) as [_|Hle]; [exact Hc|].
    destruct (Product.qty prod =? 0); [exact Hc|].
    simpl.
    destruct (Py.int_mul_float q (Product.price prod)); simpl;
      apply stock_nonneg_set; try exact Hc; simpl; lia.
  - unfold restock_product. destruct (dict_get p c) as [prod|] eqn:Hget;
      [|exact Hc].
    simpl. apply stock_nonneg_set; [exact Hc|]. simpl.
    specialize (Hc p prod Hget). lia.
Qed.

Lemma catalog_stock_nonneg : stock_nonneg catalog.
Proof.
  intros p prod. unfold catalog. simpl.
  repeat (destruct (String.eqb p _); [intros [= <-]; simpl; lia|]).
  discriminate.
Qed.

(** The out-of-stock branch is taken by the body of [place_order] when it
    is given the quantity 0 for a product with no stock; the validation
    of the query parameter keeps that quantity away from the body. *)
Example place_order_out_of_stock_branch :
  fst (place_order catalog_sold_out "pizza" 0)
    = Raised (HTTPException 400
                (DetailOutOfStock "Out of stock" "Deluxe Pizza"
                   "Sorry, Deluxe Pizza is currently out of stock")) /\
  fst (place_order_request catalog_sold_out "pizza" 0)
    = Raised RequestValidationError.
Proof. split; reflexivity. Qed.

(* ================================================================= *)
(** ** The built-ins on known values *)

(** [nearest_even_scaled m e] is an integer nearest to [m * 2^e]. *)
Lemma nearest_even_scaled_nearest (m e : Z) :
  (0 <= e -> Py.nearest_even_scaled m e = m * 2 ^ e) /\
  (e < 0 ->
   2 * Z.abs (m - Py.nearest_even_scaled m e * 2 ^ (- e)) <= 2 ^ (- e)).
Proof.
  unfold Py.nearest_even_scaled. split; intros He.
  - apply Z.leb_le in He. now rewrite He.
  - destruct (Z.leb_spec 0 e) as [|_]; [lia|].
    assert (Hd : 0 < 2 ^ (- e)) by (apply Z.pow_pos_nonneg; lia).
    set (d := 2 ^ (- e)) in *.
    pose proof (Z.div_mod m d ltac:(lia)) as Hdm.
    pose proof (Z.mod_pos_bound m d Hd) as Hr.
    destruct (Z.compare_spec (2 * (m mod d)) d) as [Heq|Hlt|Hgt].
    + destruct (Z.even (m / d)); nia.
    + nia.
    + nia.
Qed.

(** [round(x, 2)] on values whose rounding is known: ties go to the even
    hundredth, and a float just below a tie rounds down. *)
Example round2_known_values :
  Py.round2 0.125 = 0.12%float /\
  Py.round2 0.375 = 0.38%float /\
  Py.round2 2.675 = 2.67%float /\
  Py.round2 1.005 = 1%float /\
  Py.round2 31.5 = 31.5%float /\
  Py.round2 (-0.001) = (-0)%float /\
  Py.round2 infinity = infinity.
Proof. repeat split; vm_compute; reflexivity. Qed.

(** [float(n)] on both sides of the overflow threshold and of the first
    integer that is not a float. *)
Example float_of_int_known_values :
  Py.float_of_int 3 = Some 3%float /\
  Py.float_of_int (2 ^ 53 + 1) = Some 9007199254740992%float /\
  Py.float_of_int (2 ^ 53 + 3) = Some 9007199254740996%float /\
  Py.float_of_int (float_overflow_threshold - 1)
    = Some 0x1.fffffffffffffp+1023%float /\
  Py.float_of_int float_overflow_threshold = None.
Proof. repeat split; vm_compute; reflexivity. Qed.

(** Where it is defined, [float(n)] is the correctly rounded conversion of
    IEEE 754, checked here on a sample of integers. *)
Example float_of_int_is_rounding :
  forallb
    (fun n =>
       match Py.float_of_int n, binary_normalize prec emax n 0 false with
       | None, S754_infinity _ => true
       | Some f, S754_finite s m e =>
           PrimFloat.Leibniz.eqb f (SF2Prim (S754_finite s m e))
       | _, _ => false
       end)
    [1; 1000; 2 ^ 53 - 1; 2 ^ 53; 2 ^ 53 + 1; 2 ^ 53 + 2; 2 ^ 54 + 2;
     2 ^ 54 + 5; 2 ^ 54 + 6; 2 ^ 64 - 1; 10 ^ 22; 10 ^ 23; 10 ^ 308;
     - (2 ^ 53 + 3); 2 ^ 1023; 2 ^ 1024 - 2 ^ 970 - 1; 2 ^ 1024 - 2 ^ 970;
     2 ^ 1024; 10 ^ 309]
  = true.
Proof. vm_compute. reflexivity. Qed.

(* ================================================================= *)
(** ** Properties of the specification *)

Local Open Scope string_scope.






(** C3. For every string [p] that is not a key of the catalog and every
    positive [q], [place_order] raises the not-found error (status 404)
    whose text lists the keys of the catalog, in order and separated by
    commas, and the catalog is the one before the call. *)
Theorem place_order_unknown_product (c : Catalog) (p : string) (q : Z) :
  ~ In p (dict_keys c) ->
  (0 < q)%Z ->
  exists e c',
    place_order c p q = (Raised e, c') /\
    is_NotFound e = true /\
    e = HTTPException 404
          (DetailText ("Product '" ++ p ++ "' not found. Available products: "
                       ++ Py.join ", " (dict_keys c))) /\
    c' = c.
Proof.
  intros Hout _. apply dict_get_None_iff in Hout.
  unfold place_order. rewrite Hout.
  eexists. eexists. repeat split.
Qed.

Lemma place_order_unknown_product_witness :
  exists e c',
    place_order catalog "soda" 2 = (Raised e, c') /\
    is_NotFound e = true /\
    e = HTTPException 404
          (DetailText
             "Product 'soda' not found. Available products: pizza, beer, burger, White Russians, fries") /\
    c' = catalog.
Proof.
  apply (place_order_unknown_product catalog "soda" 2).
  - simpl. intuition discriminate.
  - reflexivity.
Defined.

(** C4. When the order quantity is positive, [place_order] never raises
    the out-of-stock error: a product with no stock already fails the
    insufficient-stock check that comes first. *)
Theorem place_order_never_out_of_stock (c c' : Catalog) (p : string) (q : Z)
                                       (e : Exception) :
  (0 < q)%Z ->
  place_order c p q = (Raised e, c') ->
  is_OutOfStock e = false.
Proof.
  intros Hpos. unfold place_order.
  destruct (dict_get p c) as [prod|]; [|now intros [= <- _]].
  destruct (Z.ltb_spec (Product.qty prod) q) as [Hlt|Hge];
    [now intros [= <- _]|].
  destruct (Z.eqb_spec (Product.qty prod) 0) as [Hz|Hnz]; [lia|].
  simpl. destruct (Py.int_mul_float q (Product.price prod));
    [discriminate | now intros [= <- _]].
Qed.

Lemma place_order_never_out_of_stock_witness :
  dict_get "pizza" catalog_sold_out
    = Some (Product.make "boxes" 0 12.99 "Deluxe Pizza") /\
  is_OutOfStock
    (HTTPException 400
       (DetailInsufficient "Insufficient stock" 1 0 "Deluxe Pizza"
          "Sorry, only 0 boxes available")) = false.
Proof.
  split; [reflexivity|].
  apply (place_order_never_out_of_stock catalog_sold_out catalog_sold_out
           "pizza" 1).
  - reflexivity.
  - reflexivity.
Defined.



(** C6. On every catalog (a dictionary, so with distinct keys),
    [get_inventory] reports as [total_products] the number of entries of
    the catalog, which is also the number of rows it returns; it returns
    one row per product, under the same keys, whose [in_stock] flag is
    true exactly when the quantity of that product is positive; and it
    leaves the catalog as it was. *)
Theorem get_inventory_correct (c : Catalog) :
  dict_wf c ->
  InventoryResponse.total_products (fst (get_inventory c))
    = Z.of_nat (List.length c) /\
  dict_len (InventoryResponse.products (fst (get_inventory c)))
    = InventoryResponse.total_products (fst (get_inventory c)) /\
  dict_keys (InventoryResponse.products (fst (get_inventory c)))
    = dict_keys c /\
  (forall p prod,
     dict_get p c = Some prod ->
     exists row,
       dict_get p (InventoryResponse.products (fst (get_inventory c)))
         = Some row /\
       InventoryRow.qty row = Product.qty prod /\
       (InventoryRow.in_stock row = true <-> (Product.qty prod > 0)%Z)) /\
  snd (get_inventory c) = c.
Proof.
  intros Hwf. rewrite (get_inventory_products c Hwf).
  split; [reflexivity|].
  split; [unfold dict_len; now rewrite length_map|].
  split; [apply dict_keys_inventory|].
  split; [|reflexivity].
  intros p prod Hget. exists (inventory_row prod).
  rewrite dict_get_inventory, Hget. split; [reflexivity|].
  split; [reflexivity|].
  simpl. rewrite Z.ltb_lt. lia.
Qed.

Lemma get_inventory_correct_witness :
  InventoryResponse.total_products (fst (get_inventory catalog)) = 5%Z /\
  dict_len (InventoryResponse.products (fst (get_inventory catalog)))
    = InventoryResponse.total_products (fst (get_inventory catalog)) /\
  dict_keys (InventoryResponse.products (fst (get_inventory catalog)))
    = dict_keys catalog /\
  (forall p prod,
     dict_get p catalog = Some prod ->
     exists row,
       dict_get p (InventoryResponse.products (fst (get_inventory catalog)))
         = Some row /\
       InventoryRow.qty row = Product.qty prod /\
       (InventoryRow.in_stock row = true <-> (Product.qty prod > 0)%Z)) /\
  snd (get_inventory catalog) = catalog.
Proof.
  exact (get_inventory_correct catalog catalog_wf).
Defined.





(** C9. Every call of [place_order] or of [restock_product] on a product
    id [p], whether it returns or raises, leaves the keys of the catalog
    as they were, leaves every product other than [p] as it was, and
    leaves the name, the units and the price of [p] as they were: only
    the quantity of [p] may change. The same holds when the call goes
    through the validation of the quantity. *)
Theorem handlers_change_only_qty (c : Catalog) (p : string) (q : Z) :
  only_qty_of p c (snd (place_order c p q)) /\
  only_qty_of p c (snd (restock_product c p q)) /\
  only_qty_of p c (snd (place_order_request c p q)) /\
  only_qty_of p c (snd (restock_product_request c p q)).
Proof.
  assert (Horder : only_qty_of p c (snd (place_order c p q))).
  { destruct (place_order_catalog c p q) as [->|(prod & Hget & ->)].
    - apply only_qty_of_refl.
    - now apply only_qty_of_set_qty. }
  assert (Hrestock : only_qty_of p c (snd (restock_product c p q))).
  { destruct (dict_get p c) as [prod|] eqn:Hget.
    - rewrite (restock_product_known c p q prod Hget).
      now apply only_qty_of_set_qty.
    - rewrite (restock_product_unknown c p q Hget). apply only_qty_of_refl. }
  split; [exact Horder|]. split; [exact Hrestock|].
  unfold place_order_request, restock_product_request.
  split; destruct (0 <? q)%Z; try assumption; apply only_qty_of_refl.
Qed.

(** C10 (as amended). For every product id [p] of the catalog whose stored
    quantity is positive and below the least integer that no longer
    converts to a [float] ([2^1024 - 2^970]), an order of exactly that
    quantity passes both checks and returns: the stored quantity of [p]
    becomes 0, and the [remaining_qty] of the response is that stored
    quantity. *)
Theorem place_order_all_stock (c : Catalog) (p : string) (prod : Product.t) :
  dict_get p c = Some prod ->
  (0 < Product.qty prod)%Z ->
  (Product.qty prod < float_overflow_threshold)%Z ->
  exists resp c' prod',
    place_order c p (Product.qty prod) = (Returned resp, c') /\
    dict_get p c' = Some prod' /\
    Product.qty prod' = 0%Z /\
    OrderResponse.remaining_qty resp = Product.qty prod'.
Proof.
  intros Hget Hpos Hrange.
  destruct (int_mul_float_in_range (Product.qty prod) (Product.price prod)
              Hpos Hrange) as [total Htotal].
  exists (order_response p prod (Product.qty prod) total),
         (after_order c p prod (Product.qty prod)),
         (Product.set_qty prod (Product.qty prod - Product.qty prod)).
  split; [|split; [|split]].
  - rewrite (place_order_passes c p (Product.qty prod) prod Hget) by lia.
    now rewrite Htotal.
  - apply dict_get_set_same.
  - simpl. lia.
  - reflexivity.
Qed.

Lemma place_order_all_stock_witness :
  exists resp c' prod',
    place_order catalog "fries" 1200 = (Returned resp, c') /\
    dict_get "fries" c' = Some prod' /\
    Product.qty prod' = 0%Z /\
    OrderResponse.remaining_qty resp = Product.qty prod'.
Proof.
  apply (place_order_all_stock catalog "fries"
           (Product.make "servings" 1200 3.99 "French Fries")).
  - reflexivity.
  - reflexivity.
  - reflexivity.
Defined.

(** C10 as stated fails: with exactly [2^1024] bottles of beer in stock,
    an order of the whole stock passes both checks, yet the handler
    raises [OverflowError] when it multiplies the quantity by the
    price. *)
Lemma place_order_all_stock_overflow :
  exists prod,
    dict_get "beer" catalog_huge_beer = Some prod /\
    (0 < Product.qty prod)%Z /\
    fst (place_order catalog_huge_beer "beer" (Product.qty prod))
      = Raised OverflowError.
Proof.
  eexists. split; [reflexivity|].
  split; [reflexivity|].
  vm_compute. reflexivity.
Qed.

Local Close Scope string_scope.

(* ================================================================= *)
(** ** Further properties of the handlers *)

Local Open Scope string_scope.



(** X2. Whenever [place_order] raises an [HTTPException], of whatever
    status, the catalog is the one it was given: the three checks come
    before the only assignment. *)
Theorem place_order_http_error_keeps_catalog
  (c c' : Catalog) (p : string) (q : Z) (status : Z) (detail : Detail) :
  place_order c p q = (Raised (HTTPException status detail), c') ->
  c' = c.
Proof.
  unfold place_order. destruct (dict_get p c) as [prod|];
    [|now intros [= _ _ <-]].
  destruct (Product.qty prod <? q)%Z; [now intros [= _ _ <-]|].
  destruct (Product.qty prod =? 0)%Z; [now intros [= _ _ <-]|].
  simpl. destruct (Py.int_mul_float q (Product.price prod)); discriminate.
Qed.

Lemma place_order_http_error_keeps_catalog_witness :
  snd (place_order catalog_sold_out "pizza" 5) = catalog_sold_out.
Proof.
  apply (place_order_http_error_keeps_catalog catalog_sold_out
           (snd (place_order catalog_sold_out "pizza" 5)) "pizza" 5 400
           (DetailInsufficient "Insufficient stock" 5 0 "Deluxe Pizza"
              "Sorry, only 0 boxes available")).
  reflexivity.
Defined.

(** X3. When [place_order] raises [OverflowError] on a positive quantity,
    the order had passed the stock checks and the stored quantity of the
    product is already reduced by the ordered quantity, although no
    response is returned; this happens only from the overflow threshold
    on. *)
Theorem place_order_overflow_after_update (c c' : Catalog) (p : string)
                                          (q : Z) :
  (0 < q)%Z ->
  place_order c p q = (Raised OverflowError, c') ->
  exists prod,
    dict_get p c = Some prod /\
    (q <= Product.qty prod)%Z /\
    (float_overflow_threshold <= q)%Z /\
    dict_get p c' = Some (Product.set_qty prod (Product.qty prod - q)).
Proof.
  intros Hpos. unfold place_order.
  destruct (dict_get p c) as [prod|] eqn:Hget; [|discriminate].
  destruct (Z.ltb_spec (Product.qty prod) q) as [|Hle]; [discriminate|].
  destruct (Z.eqb_spec (Product.qty prod) 0) as [|Hnz]; [discriminate|].
  simpl.
  destruct (Py.int_mul_float q (Product.price prod)) as [total|] eqn:Hmul;
    [discriminate|].
  intros [= <-]. exists prod. split; [reflexivity|]. split; [exact Hle|].
  split; [|apply dict_get_set_same].
  apply (float_of_int_None_iff q Hpos).
  unfold Py.int_mul_float in Hmul.
  destruct (Py.float_of_int q); [discriminate | reflexivity].
Qed.

Lemma place_order_overflow_after_update_witness :
  exists prod,
    dict_get "pizza" catalog_huge_pizza = Some prod /\
    (2 ^ 1024 <= Product.qty prod)%Z /\
    (float_overflow_threshold <= 2 ^ 1024)%Z /\
    dict_get "pizza" (snd (place_order catalog_huge_pizza "pizza" (2 ^ 1024)))
      = Some (Product.set_qty prod (Product.qty prod - 2 ^ 1024)).
Proof.
  apply (place_order_overflow_after_update catalog_huge_pizza
           (snd (place_order catalog_huge_pizza "pizza" (2 ^ 1024)))
           "pizza" (2 ^ 1024)).
  - reflexivity.
  - vm_compute. reflexivity.
Defined.

(** X4. The body of [place_order] raises the out-of-stock error exactly
    when the product is in the catalog with no stock and the quantity is
    not positive. *)
Theorem place_order_out_of_stock_iff (c : Catalog) (p : string) (q : Z) :
  (exists e c', place_order c p q = (Raised e, c') /\ is_OutOfStock e = true)
  <->
  (exists prod,
     dict_get p c = Some prod /\ Product.qty prod = 0%Z /\ (q <= 0)%Z).
Proof.
  unfold place_order. split.
  - intros (e & c' & Horder & Hkind).
    destruct (dict_get p c) as [prod|]; [|injection Horder as <- _; discriminate].
    destruct (Z.ltb_spec (Product.qty prod) q) as [|Hle];
      [injection Horder as <- _; discriminate|].
    destruct (Z.eqb_spec (Product.qty prod) 0) as [Hz|Hnz].
    + exists prod. split; [reflexivity|]. split; [exact Hz | lia].
    + simpl in Horder.
      destruct (Py.int_mul_float q (Product.price prod));
        [discriminate | injection Horder as <- _; discriminate].
  - intros (prod & -> & Hz & Hq).
    destruct (Z.ltb_spec (Product.qty prod) q) as [|_]; [lia|].
    destruct (Z.eqb_spec (Product.qty prod) 0) as [_|]; [|contradiction].
    eexists. eexists. split; reflexivity.
Qed.

Local Close Scope string_scope.

(* ================================================================= *)
(** ** How requests compose *)

(** Two assignments to different keys, the first of which is present, can
    be exchanged. *)
Lemma dict_set_comm {V : Type} (k1 k2 : string) (v1 v2 v0 : V)
                    (d : Dict V) :
  k1 <> k2 ->
  dict_get k1 d = Some v0 ->
  dict_set k1 v1 (dict_set k2 v2 d) = dict_set k2 v2 (dict_set k1 v1 d).
Proof.
  intros Hne. induction d as [|[k v] d IH]; simpl; [discriminate|].
  destruct (String.eqb_spec k1 k) as [->|Hk1].
  - intros _. destruct (String.eqb_spec k2 k) as [->|Hk2]; [contradiction|].
    simpl. rewrite String.eqb_refl.
    destruct (String.eqb_spec k2 k); [contradiction | reflexivity].
  - intros Hget. destruct (String.eqb_spec k2 k) as [->|Hk2]; simpl.
    + destruct (String.eqb_spec k1 k); [contradiction|].
      now rewrite String.eqb_refl.
    + destruct (String.eqb_spec k1 k); [contradiction|].
      destruct (String.eqb_spec k2 k); [contradiction|].
      now rewrite (IH Hget).
Qed.

(** The outcome of [place_order] depends on the catalog through the keys
    and the record of the product only. *)
Lemma place_order_outcome_local (c1 c2 : Catalog) (p : string) (q : Z) :
  dict_keys c1 = dict_keys c2 ->
  dict_get p c1 = dict_get p c2 ->
  fst (place_order c1 p q) = fst (place_order c2 p q).
Proof.
  intros Hkeys Hget. unfold place_order. rewrite Hget, Hkeys.
  destruct (dict_get p c2) as [prod|]; [|reflexivity].
  destruct (Product.qty prod <? q)%Z; [reflexivity|].
  destruct (Product.qty prod =? 0)%Z; [reflexivity|].
  simpl. destruct (Py.int_mul_float q (Product.price prod)); reflexivity.
Qed.

Lemma restock_product_outcome_local (c1 c2 : Catalog) (p : string) (q : Z) :
  dict_get p c1 = dict_get p c2 ->
  fst (restock_product c1 p q) = fst (restock_product c2 p q).
Proof.
  intros Hget. unfold restock_product. rewrite Hget.
  destruct (dict_get p c2); reflexivity.
Qed.

Lemma place_order_catalog_update (c : Catalog) (p : string) (q : Z) :
  snd (place_order c p q) = apply_update c p (fun prod => order_update prod q).
Proof.
  unfold place_order, apply_update, order_update.
  destruct (dict_get p c) as [prod|]; [|reflexivity].
  destruct (Product.qty prod <? q)%Z; [reflexivity|].
  destruct (Product.qty prod =? 0)%Z; [reflexivity|].
  simpl. destruct (Py.int_mul_float q (Product.price prod)); reflexivity.
Qed.

Lemma restock_product_catalog_update (c : Catalog) (p : string) (q : Z) :
  snd (restock_product c p q)
  = apply_update c p
      (fun prod => Some (Product.set_qty prod (Product.qty prod + q))).
Proof.
  unfold restock_product, apply_update.
  destruct (dict_get p c) as [prod|]; reflexivity.
Qed.

Lemma apply_update_keys (c : Catalog) (p : string)
                        (update : Product.t -> option Product.t) :
  dict_keys (apply_update c p update) = dict_keys c.
Proof.
  unfold apply_update. destruct (dict_get p c) as [prod|] eqn:Hget;
    [|reflexivity].
  destruct (update prod); [|reflexivity].
  exact (dict_keys_set_present p _ prod c Hget).
Qed.

Lemma apply_update_other (c : Catalog) (p p' : string)
                         (update : Product.t -> option Product.t) :
  p' <> p -> dict_get p' (apply_update c p update) = dict_get p' c.
Proof.
  intros Hne. unfold apply_update. destruct (dict_get p c) as [prod|];
    [|reflexivity].
  destruct (update prod); [|reflexivity].
  now apply dict_get_set_other.
Qed.

Lemma apply_update_comm (c : Catalog) (p1 p2 : string)
                        (u1 u2 : Product.t -> option Product.t) :
  p1 <> p2 ->
  apply_update (apply_update c p1 u1) p2 u2
  = apply_update (apply_update c p2 u2) p1 u1.
Proof.
  intros Hne.
  unfold apply_update at 1 3.
  rewrite (apply_update_other c p1 p2 u1) by congruence.
  rewrite (apply_update_other c p2 p1 u2) by congruence.
  unfold apply_update.
  destruct (dict_get p1 c) as [prod1|] eqn:H1;
    destruct (dict_get p2 c) as [prod2|] eqn:H2;
    try destruct (u1 prod1); try destruct (u2 prod2); try reflexivity.
  symmetry. now apply (dict_set_comm p1 p2 _ _ prod1).
Qed.

Local Open Scope string_scope.



(** X6. Two orders of the same product that both return leave the catalog
    that a single order of the two quantities together leaves, and the
    second response reports as [remaining_qty] the original quantity
    minus both. *)
Theorem orders_compose (c c1 c2 : Catalog) (p : string) (q1 q2 : Z)
                       (r1 r2 : OrderResponse.t) :
  place_order c p q1 = (Returned r1, c1) ->
  place_order c1 p q2 = (Returned r2, c2) ->
  snd (place_order c p (q1 + q2)) = c2 /\
  OrderResponse.remaining_qty r2
    = (OrderResponse.remaining_qty r1 - q2)%Z /\
  exists prod,
    dict_get p c = Some prod /\
    OrderResponse.remaining_qty r2 = (Product.qty prod - (q1 + q2))%Z.
Proof.
  intros H1 H2.
  apply place_order_Returned_inv in H1.
  destruct H1 as (prod & t1 & Hget & Hle1 & Hnz1 & _ & -> & ->).
  apply place_order_Returned_inv in H2.
  destruct H2 as (prod1 & t2 & Hget1 & Hle2 & Hnz2 & _ & -> & ->).
  unfold after_order in Hget1 at 1. rewrite dict_get_set_same in Hget1.
  injection Hget1 as <-. simpl in Hle2, Hnz2.
  split; [|split; [reflexivity|]].
  - rewrite place_order_catalog_update. unfold apply_update, order_update.
    rewrite Hget.
    destruct (Z.ltb_spec (Product.qty prod) (q1 + q2)) as [|_]; [lia|].
    destruct (Z.eqb_spec (Product.qty prod) 0) as [|_]; [contradiction|].
    unfold after_order. rewrite dict_set_set. f_equal.
    unfold Product.set_qty. simpl. f_equal. lia.
  - exists prod. split; [exact Hget|]. simpl. lia.
Qed.

Lemma orders_compose_witness :
  snd (place_order catalog "beer" (100 + 400))
    = snd (place_order (snd (place_order catalog "beer" 100)) "beer" 400) /\
  (500 - 100 - 400 = 500 - 100 - 400)%Z /\
  exists prod,
    dict_get "beer" catalog = Some prod /\
    (500 - 100 - 400)%Z = (Product.qty prod - (100 + 400))%Z.
Proof.
  apply (orders_compose catalog
           (snd (place_order catalog "beer" 100))
           (snd (place_order (snd (place_order catalog "beer" 100)) "beer" 400))
           "beer" 100 400
           (order_response "beer"
              (Product.make "bottles" 500 4.50 "Craft Beer") 100 450)
           (order_response "beer"
              (Product.make "bottles" 400 4.50 "Craft Beer") 400 1800)).
  - vm_compute. reflexivity.
  - vm_compute. reflexivity.
Defined.



(** X8. An order and a restock of two different products do not see each
    other: each has the outcome it has on its own, and the catalog they
    leave does not depend on which one comes first. The same holds for
    two orders, and for two restocks, of different products. *)
Theorem requests_on_distinct_products_commute
  (c : Catalog) (p1 p2 : string) (q1 q2 : Z) :
  p1 <> p2 ->
  (fst (place_order (snd (restock_product c p2 q2)) p1 q1)
     = fst (place_order c p1 q1) /\
   fst (restock_product (snd (place_order c p1 q1)) p2 q2)
     = fst (restock_product c p2 q2) /\
   snd (place_order (snd (restock_product c p2 q2)) p1 q1)
     = snd (restock_product (snd (place_order c p1 q1)) p2 q2)) /\
  (fst (place_order (snd (place_order c p2 q2)) p1 q1)
     = fst (place_order c p1 q1) /\
   snd (place_order (snd (place_order c p2 q2)) p1 q1)
     = snd (place_order (snd (place_order c p1 q1)) p2 q2)) /\
  (fst (restock_product (snd (restock_product c p2 q2)) p1 q1)
     = fst (restock_product c p1 q1) /\
   snd (restock_product (snd (restock_product c p2 q2)) p1 q1)
     = snd (restock_product (snd (restock_product c p1 q1)) p2 q2)).
Proof.
  intros Hne.
  assert (Hne' : p2 <> p1) by congruence.
  repeat split.
  - apply place_order_outcome_local.
    + rewrite restock_product_catalog_update. apply apply_update_keys.
    + rewrite restock_product_catalog_update. now apply apply_update_other.
  - apply restock_product_outcome_local.
    rewrite place_order_catalog_update. now apply apply_update_other.
  - rewrite !place_order_catalog_update, !restock_product_catalog_update.
    now apply apply_update_comm.
  - apply place_order_outcome_local.
    + rewrite place_order_catalog_update. apply apply_update_keys.
    + rewrite place_order_catalog_update. now apply apply_update_other.
  - rewrite !place_order_catalog_update. now apply apply_update_comm.
  - apply restock_product_outcome_local.
    rewrite restock_product_catalog_update. now apply apply_update_other.
  - rewrite !restock_product_catalog_update. now apply apply_update_comm.
Qed.

Lemma requests_on_distinct_products_commute_witness :
  snd (place_order (snd (restock_product catalog "beer" 50)) "pizza" 3)
  = snd (restock_product (snd (place_order catalog "pizza" 3)) "beer" 50).
Proof.
  apply (requests_on_distinct_products_commute catalog "pizza" "beer" 3 50).
  discriminate.
Defined.

Local Close Scope string_scope.

(* ================================================================= *)
(** ** Sequences of requests *)

Lemma same_products_refl (c : Catalog) : same_products c c.
Proof.
  split; [reflexivity|]. intros p prod H. exists prod. auto.
Qed.

Lemma same_products_trans (c1 c2 c3 : Catalog) :
  same_products c1 c2 -> same_products c2 c3 -> same_products c1 c3.
Proof.
  intros [Hk12 H12] [Hk23 H23]. split; [congruence|].
  intros p prod Hget.
  destruct (H12 p prod Hget) as (prod2 & Hget2 & Hn2 & Hu2 & Hp2).
  destruct (H23 p prod2 Hget2) as (prod3 & Hget3 & Hn3 & Hu3 & Hp3).
  exists prod3. repeat split; congruence.
Qed.

Lemma only_qty_of_same_products (p : string) (c c' : Catalog) :
  only_qty_of p c c' -> same_products c c'.
Proof.
  intros (Hkeys & Hother & Hp & _). split; [exact Hkeys|].
  intros p' prod Hget. destruct (string_dec p' p) as [->|Hne].
  - now apply Hp.
  - exists prod. rewrite (Hother p' Hne). auto.
Qed.

Lemma place_order_same_products (c : Catalog) (p : string) (q : Z) :
  same_products c (snd (place_order c p q)).
Proof.
  apply (only_qty_of_same_products p).
  destruct (place_order_catalog c p q) as [->|(prod & Hget & ->)].
  - apply only_qty_of_refl.
  - now apply only_qty_of_set_qty.
Qed.

Lemma restock_product_same_products (c : Catalog) (p : string) (q : Z) :
  same_products c (snd (restock_product c p q)).
Proof.
  apply (only_qty_of_same_products p).
  destruct (dict_get p c) as [prod|] eqn:Hget.
  - rewrite (restock_product_known c p q prod Hget).
    now apply only_qty_of_set_qty.
  - rewrite (restock_product_unknown c p q Hget). apply only_qty_of_refl.
Qed.

Lemma dispatch_same_products (c : Catalog) (r : Request) :
  same_products c (snd (dispatch c r)).
Proof.
  destruct r as [|p q|p q|]; simpl.
  - apply same_products_refl.
  - unfold place_order_request. destruct (0 <? q).
    + destruct (place_order c p q) as [o c'] eqn:E. simpl.
      change c' with (snd (o, c')). rewrite <- E.
      apply place_order_same_products.
    + apply same_products_refl.
  - unfold restock_product_request. destruct (0 <? q).
    + destruct (restock_product c p q) as [o c'] eqn:E. simpl.
      change c' with (snd (o, c')). rewrite <- E.
      apply restock_product_same_products.
    + apply same_products_refl.
  - apply same_products_refl.
Qed.

Lemma dispatch_snd_order (c : Catalog) (p : string) (q : Z) :
  snd (dispatch c (PlaceOrder p q)) = snd (place_order_request c p q).
Proof.
  simpl. now destruct (place_order_request c p q).
Qed.

Lemma dispatch_snd_restock (c : Catalog) (p : string) (q : Z) :
  snd (dispatch c (Restock p q)) = snd (restock_product_request c p q).
Proof.
  simpl. now destruct (restock_product_request c p q).
Qed.

Lemma dispatch_stock_nonneg (c : Catalog) (r : Request) :
  stock_nonneg c -> stock_nonneg (snd (dispatch c r)).
Proof.
  intros Hc. destruct r as [|p q|p q|].
  - exact Hc.
  - rewrite dispatch_snd_order.
    apply (requests_preserve_stock_nonneg c p q Hc).
  - rewrite dispatch_snd_restock.
    apply (requests_preserve_stock_nonneg c p q Hc).
  - exact Hc.
Qed.

Lemma run_cons (c : Catalog) (r : Request) (rs : list Request) :
  run c (r :: rs) = run (snd (dispatch c r)) rs.
Proof. reflexivity. Qed.

Lemma run_same_products (rs : list Request) :
  forall c, same_products c (run c rs).
Proof.
  induction rs as [|r rs IH]; intros c.
  - apply same_products_refl.
  - rewrite run_cons.
    apply (same_products_trans c (snd (dispatch c r))).
    + apply dispatch_same_products.
    + apply IH.
Qed.

Local Open Scope string_scope.

(** X9. Whatever requests are served, in whatever order and with whatever
    outcome, the catalog keeps its products: the same keys in the same
    order, each with the name, the units and the price it had; so the
    count reported by [health_check] and by [get_inventory] never
    changes. *)
Theorem run_keeps_products (c : Catalog) (rs : list Request) :
  same_products c (run c rs) /\
  HealthResponse.products_available (fst (health_check (run c rs)))
    = HealthResponse.products_available (fst (health_check c)) /\
  InventoryResponse.total_products (fst (get_inventory (run c rs)))
    = HealthResponse.products_available (fst (health_check c)).
Proof.
  pose proof (run_same_products rs c) as Hsame.
  split; [exact Hsame|].
  destruct Hsame as [Hkeys _].
  assert (Hlen : dict_len (run c rs) = dict_len c).
  { unfold dict_len.
    rewrite <- (length_map fst (run c rs)), <- (length_map fst c).
    change (map fst (run c rs)) with (dict_keys (run c rs)).
    now rewrite Hkeys. }
  split; simpl; exact Hlen.
Qed.

(** X10. When no product has a negative quantity, none has one after any
    sequence of requests: the validated handlers never sell more than
    there is. *)
Theorem run_keeps_stock_nonneg (c : Catalog) (rs : list Request) :
  stock_nonneg c -> stock_nonneg (run c rs).
Proof.
  revert c. induction rs as [|r rs IH]; intros c Hc.
  - exact Hc.
  - rewrite run_cons. apply IH. now apply dispatch_stock_nonneg.
Qed.

Lemma run_keeps_stock_nonneg_witness :
  stock_nonneg
    (run catalog
       [PlaceOrder "pizza" 1000; PlaceOrder "pizza" 1; Restock "beer" (-600);
        PlaceOrder "beer" 0; Restock "fries" 5; GetInventory;
        PlaceOrder "soda" 2; HealthCheck]).
Proof.
  apply (run_keeps_stock_nonneg catalog). exact catalog_stock_nonneg.
Defined.

(** X11. The product list of the client, read from the catalog when the
    client starts, never goes stale: after any sequence of requests it is
    still the list of keys of the catalog, so an order for one of its
    names never raises the not-found error. *)
Theorem item_names_never_stale (rs : list Request) (name : string) (q : Z)
                               (e : Exception) (c' : Catalog) :
  In name ITEM_NAMES ->
  place_order (run catalog rs) name q = (Raised e, c') ->
  dict_keys (run catalog rs) = ITEM_NAMES /\ is_NotFound e = false.
Proof.
  intros Hin Horder.
  destruct (run_same_products rs catalog) as [Hkeys _].
  split; [exact Hkeys|].
  destruct (dict_get name (run catalog rs)) as [prod|] eqn:Hget.
  - unfold place_order in Horder. rewrite Hget in Horder.
    destruct (Product.qty prod <? q)%Z; [now injection Horder as <- _|].
    destruct (Product.qty prod =? 0)%Z; [now injection Horder as <- _|].
    simpl in Horder.
    destruct (Py.int_mul_float q (Product.price prod));
      [discriminate | now injection Horder as <- _].
  - exfalso. apply dict_get_None_iff in Hget. apply Hget.
    rewrite Hkeys. exact Hin.
Qed.

Lemma item_names_never_stale_witness :
  dict_keys (run catalog [PlaceOrder "White Russians" 1750; Restock "beer" 1])
    = ITEM_NAMES /\
  is_NotFound
    (HTTPException 400
       (DetailInsufficient "Insufficient stock" 1 0 "White Russians Cocktail"
          "Sorry, only 0 pieces available")) = false.
Proof.
  apply (item_names_never_stale
           [PlaceOrder "White Russians" 1750; Restock "beer" 1]
           "White Russians" 1 _
           (run catalog [PlaceOrder "White Russians" 1750; Restock "beer" 1])).
  - simpl. tauto.
  - vm_compute. reflexivity.
Defined.

Local Close Scope string_scope.

Local Open Scope string_scope.

(** X12. The inventory listing agrees with the response of an order: after
    an order of [p] has returned, [get_inventory] shows for [p] a row
    whose quantity is the [remaining_qty] of the response, whose name and
    units are those of the response, and whose [in_stock] flag is true
    exactly when [remaining_qty] is positive; the number of products is
    the one before the order. *)
Theorem order_then_inventory (c c1 : Catalog) (p : string) (q : Z)
                             (resp : OrderResponse.t) :
  dict_wf c ->
  place_order c p q = (Returned resp, c1) ->
  InventoryResponse.total_products (fst (get_inventory c1))
    = InventoryResponse.total_products (fst (get_inventory c)) /\
  exists row,
    dict_get p (InventoryResponse.products (fst (get_inventory c1)))
      = Some row /\
    InventoryRow.qty row = OrderResponse.remaining_qty resp /\
    InventoryRow.name row = OrderResponse.product_name resp /\
    InventoryRow.units row = OrderResponse.units resp /\
    (InventoryRow.in_stock row = true
     <-> (OrderResponse.remaining_qty resp > 0)%Z).
Proof.
  intros Hwf Horder.
  apply place_order_Returned_inv in Horder.
  destruct Horder as (prod & total & Hget & _ & _ & _ & -> & ->).
  assert (Hwf1 : dict_wf (after_order c p prod q))
    by now apply (dict_wf_set_present p _ prod).
  split.
  - simpl. now apply (dict_len_set_present p _ prod).
  - rewrite (get_inventory_products _ Hwf1), dict_get_inventory.
    unfold after_order. rewrite dict_get_set_same. simpl.
    eexists. split; [reflexivity|]. simpl.
    repeat split; rewrite Z.ltb_lt; lia.
Qed.

Lemma order_then_inventory_witness :
  InventoryResponse.total_products
    (fst (get_inventory (snd (place_order catalog "burger" 750))))
    = InventoryResponse.total_products (fst (get_inventory catalog)) /\
  exists row,
    dict_get "burger"
      (InventoryResponse.products
         (fst (get_inventory (snd (place_order catalog "burger" 750)))))
      = Some row /\
    InventoryRow.qty row = (750 - 750)%Z /\
    InventoryRow.name row = "Classic Burger" /\
    InventoryRow.units row = "pieces" /\
    (InventoryRow.in_stock row = true <-> (750 - 750 > 0)%Z).
Proof.
  apply (order_then_inventory catalog
           (snd (place_order catalog "burger" 750)) "burger" 750
           (order_response "burger"
              (Product.make "pieces" 750 8.99 "Classic Burger") 750 6742.5)).
  - exact catalog_wf.
  - vm_compute. reflexivity.
Defined.

(** X13. Through the validated handlers stock moves one way only: a
    request to order never raises the stored quantity of the product (it
    leaves it, or lowers it by the ordered quantity), and a request to
    restock never lowers it. *)
Theorem validated_requests_monotone (c : Catalog) (p : string) (q : Z)
                                    (prod : Product.t) :
  dict_get p c = Some prod ->
  (exists prod1,
     dict_get p (snd (place_order_request c p q)) = Some prod1 /\
     (Product.qty prod1 <= Product.qty prod)%Z /\
     (Product.qty prod1 = Product.qty prod \/
      Product.qty prod1 = (Product.qty prod - q)%Z)) /\
  (exists prod2,
     dict_get p (snd (restock_product_request c p q)) = Some prod2 /\
     (Product.qty prod <= Product.qty prod2)%Z).
Proof.
  intros Hget. unfold place_order_request, restock_product_request.
  destruct (Z.ltb_spec 0 q) as [Hpos|Hnpos].
  - split.
    + rewrite place_order_catalog_update. unfold apply_update, order_update.
      rewrite Hget.
      destruct (Product.qty prod <? q)%Z;
        [exists prod; split; [exact Hget | lia]|].
      destruct (Product.qty prod =? 0)%Z;
        [exists prod; split; [exact Hget | lia]|].
      eexists. rewrite dict_get_set_same. split; [reflexivity|].
      simpl. lia.
    + rewrite (restock_product_known c p q prod Hget). simpl.
      eexists. unfold after_restock. rewrite dict_get_set_same.
      split; [reflexivity|]. simpl. lia.
  - split; exists prod; simpl; split; try exact Hget; lia.
Qed.

Lemma validated_requests_monotone_witness :
  (exists prod1,
     dict_get "pizza" (snd (place_order_request catalog "pizza" 10))
       = Some prod1 /\
     (Product.qty prod1 <= 1000)%Z /\
     (Product.qty prod1 = 1000%Z \/ Product.qty prod1 = (1000 - 10)%Z)) /\
  (exists prod2,
     dict_get "pizza" (snd (restock_product_request catalog "pizza" 10))
       = Some prod2 /\
     (1000 <= Product.qty prod2)%Z).
Proof.
  apply (validated_requests_monotone catalog "pizza" 10
           (Product.make "boxes" 1000 12.99 "Deluxe Pizza")).
  reflexivity.
Defined.

Local Close Scope string_scope.
